(** * xpaste: the package descriptor [setup.py]

    A shallow embedding of the repository's only source file, the
    distutils descriptor [setup.py], and the properties of the packaging
    contract that the specification states about it.

    The script is straight-line Python guarded by [__name__ == '__main__']:
    it binds an empty list, opens [README.rst] in a [with] block, appends
    the text it reads, and calls [setup] with literal keyword arguments
    plus the joined list.  The embedding keeps the three pieces of external
    state the script touches: the file system it reads, the table of open
    file descriptors of the process, and the calls made to [setup]. *)

From Stdlib Require Import NArith Ascii String.
From Stdlib.Strings Require Import Byte.
From stdpp Require Import base option list relations strings gmap fin_maps.

Local Open Scope string_scope.

(** ** Data model *)

Module Py.

(** A directory entry as far as [open(path)] distinguishes: its bytes and
    whether the running user may read it. *)
Record node := Node {
  readable : bool;
  data : list byte;
}.

(** An open file description: the path it was opened by and the entry it
    refers to. *)
Record ofile := OFile {
  of_path : string;
  of_node : node;
}.

(** The exceptions the script can meet.  [open] raises an [OSError]
    (here its two subclasses for a missing and for a protected file;
    Python 2.7 raises [IOError] with the matching [errno]),
    [file.read()] in text mode raises [UnicodeDecodeError], and reading
    through a descriptor that is not open raises [ValueError]. *)
Inductive exn :=
| FileNotFoundError (path : string)
| PermissionError (path : string)
| UnicodeDecodeError
| ValueError.

(** The specification's single error kind: the readme could not be opened
    or could not be read. *)
Definition file_access_error (e : exn) : bool :=
  match e with
  | FileNotFoundError _ | PermissionError _ | UnicodeDecodeError => true
  | ValueError => false
  end.

(** The keyword arguments of the call [setup(...)], in source order. *)
Record kwargs := Kwargs {
  name : string;
  version : string;
  scripts : list string;
  data_files : list (string * list string);
  install_requires : list string;
  description : string;
  long_description : string;
  author : string;
  author_email : string;
  url : string;
  license : string;
  platforms : list string;
  classifiers : list string;
}.

(** The world outside the script.  [text_layer] is what a text-mode
    [read()] of the running interpreter does to a file's bytes: the
    script calls [open('README.rst')] without an [encoding] argument, so
    the codec is the interpreter's and the locale's choice, not the
    script's.  [None] stands for a decoding failure. *)
Record world := World {
  fs : gmap string node;
  text_layer : list byte → option string;
  open_files : gmap nat ofile;
  setup_calls : list kwargs;
}.

(** Results of a statement: a value or an uncaught exception. *)
Inductive result (A : Type) :=
| Ok (a : A)
| Raise (e : exn).
Arguments Ok {A} a.
Arguments Raise {A} e.

(** State-and-exception monad of the interpreter. *)
Definition M (A : Type) : Type := world → result A * world.

Definition ret {A} (a : A) : M A := λ w, (Ok a, w).
Definition raise {A} (e : exn) : M A := λ w, (Raise e, w).
Definition bind {A B} (m : M A) (k : A → M B) : M B :=
  λ w, match m w with
       | (Ok a, w') => k a w'
       | (Raise e, w') => (Raise e, w')
       end.

(** [try: m finally: c]: [c] runs on both paths, and an exception of [m]
    is raised again after it. *)
Definition finally {A} (m : M A) (c : M unit) : M A :=
  λ w, match m w with
       | (Ok a, w') =>
           match c w' with
           | (Ok _, w'') => (Ok a, w'')
           | (Raise e, w'') => (Raise e, w'')
           end
       | (Raise e, w') =>
           match c w' with
           | (Ok _, w'') => (Raise e, w'')
           | (Raise e', w'') => (Raise e', w'')
           end
       end.

#[global] Instance M_ret : MRet M := @ret.
#[global] Instance M_bind : MBind M := λ A B k m, bind m k.

(** ** Built-ins used by the script *)

(** [open(path)]: the entry must exist and be readable; the new file
    object gets a descriptor of the process that is not in use (the
    script never looks at its number).  Entries are regular files: of
    the ways in which [open] can fail, the model tells apart a missing
    entry and a protected one, and no more. *)
Definition py_open (path : string) : M nat :=
  λ w, match fs w !! path with
       | None => (Raise (FileNotFoundError path), w)
       | Some n =>
           if readable n then
             let fd := fresh (dom (open_files w)) in
             (Ok fd, World (fs w) (text_layer w)
                           (<[fd := OFile path n]> (open_files w))
                           (setup_calls w))
           else (Raise (PermissionError path), w)
       end.

(** [file.read()] on a freshly opened text file: the whole contents,
    passed through the interpreter's text layer. *)
Definition py_read (fd : nat) : M string :=
  λ w, match open_files w !! fd with
       | None => (Raise ValueError, w)
       | Some f =>
           match text_layer w (data (of_node f)) with
           | Some s => (Ok s, w)
           | None => (Raise UnicodeDecodeError, w)
           end
       end.

(** [file.close()], which is what the file object's [__exit__] does. *)
Definition py_close (fd : nat) : M unit :=
  λ w, (Ok tt, World (fs w) (text_layer w)
                     (delete fd (open_files w)) (setup_calls w)).

(** [sep.join(l)] *)
Fixpoint join (sep : string) (l : list string) : string :=
  match l with
  | [] => ""
  | [s] => s
  | s :: l' => s ++ sep ++ join sep l'
  end.

(** [distutils.core.setup], called with keyword arguments, is not code
    of this repository.  The script's contract with it is the keyword
    arguments it passes, so the call is recorded in the world; what
    distutils then does with them (the command it runs, the files it
    writes, the exit it may take) is outside the model. *)
Definition setup (kw : kwargs) : M unit :=
  λ w, (Ok tt, World (fs w) (text_layer w) (open_files w)
                     (setup_calls w ++ [kw])).

(** [with open(path) as file: body(file)] *)
Definition with_open {A} (path : string) (body : nat → M A) : M A :=
  file ← py_open path;
  finally (body file) (py_close file).

End Py.
Import Py.

(** ** The script *)

Module Script.

Definition README : string := "README.rst".

(** The separator ['\n\n\n']. *)
Definition nl : ascii := "010"%char.
Definition sep3 : string := String nl (String nl (String nl "")).

(** The keyword arguments of the [setup] call (lines 10-38); the only
    part that is not a literal is [long_description]. *)
Definition descriptor (long_descriptions : list string) : kwargs := {|
  name := "xpaste";
  version := "1.6";
  scripts := ["xpaste"];
  data_files := [
    ("share/doc/xpaste", ["LICENSE.txt"; "README.rst"]);
    ("share/man/man1", ["xpaste.1x"])];
  install_requires := [
    "python-xlib"
  ];
  description :=
    "paste text into X windows that don't work with selections";
  long_description := join sep3 long_descriptions;
  author := "Walter Doekes, OSSO B.V.";
  author_email := "wjdoekes+xpaste@osso.nl";
  url := "https://github.com/ossobv/xpaste";
  license := "GPLv3+";
  platforms := ["linux"];
  classifiers := [
    "Development Status :: 5 - Production/Stable";
    "Intended Audience :: End Users/Desktop";
    "License :: OSI Approved :: GNU General Public License v3 "
      ++ "or later (GPLv3+)";
    "Operating System :: POSIX :: Linux";
    "Environment :: X11 Applications";
    "Programming Language :: Python :: 2.7";
    "Programming Language :: Python :: 3";
    "Topic :: Terminals :: Terminal Emulators/X Terminals";
    "Topic :: Utilities"
  ];
|}.

(** The body of [if __name__ == '__main__':].  The list is local to the
    script, so its mutation by [append] is threaded as a value. *)
Definition main : M unit :=
  let long_descriptions : list string := [] in
  long_descriptions ←
    with_open README (λ file,
      s ← py_read file;
      mret (long_descriptions ++ [s])%list);
  setup (descriptor long_descriptions).

(** The module, run with [__name__] bound to [dunder_name].  The import
    of [setup] binds a name; the interpreter is taken to provide
    [distutils.core], as those named in the classifiers do. *)
Definition module (dunder_name : string) : M unit :=
  if decide (dunder_name = "__main__") then main else mret tt.

(** *** The same script, statement by statement

    A control point per statement, with the values of the locals that
    are live there. *)
Inductive control :=
| AtGuard
| AtInit
| AtOpen (long_descriptions : list string)
| AtRead (long_descriptions : list string) (file : nat)
| AtExit (long_descriptions : list string) (file : nat)
| AtUnwind (file : nat) (e : exn)
| AtSetup (long_descriptions : list string)
| Done
| Uncaught (e : exn).

Definition config : Type := control * world.

Inductive step (dunder_name : string) : config → config → Prop :=
| step_guard_main w :
    dunder_name = "__main__" →
    step dunder_name (AtGuard, w) (AtInit, w)
| step_guard_import w :
    dunder_name ≠ "__main__" →
    step dunder_name (AtGuard, w) (Done, w)
| step_init w :
    step dunder_name (AtInit, w) (AtOpen [], w)
| step_open ld w file w' :
    py_open README w = (Ok file, w') →
    step dunder_name (AtOpen ld, w) (AtRead ld file, w')
| step_open_raise ld w e w' :
    py_open README w = (Raise e, w') →
    step dunder_name (AtOpen ld, w) (Uncaught e, w')
| step_read ld file w s w' :
    py_read file w = (Ok s, w') →
    step dunder_name (AtRead ld file, w) (AtExit (ld ++ [s])%list file, w')
| step_read_raise ld file w e w' :
    py_read file w = (Raise e, w') →
    step dunder_name (AtRead ld file, w) (AtUnwind file e, w')
| step_exit ld file w u w' :
    py_close file w = (Ok u, w') →
    step dunder_name (AtExit ld file, w) (AtSetup ld, w')
| step_unwind file e w u w' :
    py_close file w = (Ok u, w') →
    step dunder_name (AtUnwind file e, w) (Uncaught e, w')
| step_setup ld w u w' :
    setup (descriptor ld) w = (Ok u, w') →
    step dunder_name (AtSetup ld, w) (Done, w').

(** Control points that lie after the [with] block. *)
Definition after_with (c : control) : bool :=
  match c with
  | AtSetup _ | Done | Uncaught _ => true
  | _ => false
  end.

(** The configuration in which a run of the module ends. *)
Definition final (r : result unit * world) : config :=
  match r with
  | (Ok _, w) => (Done, w)
  | (Raise e, w) => (Uncaught e, w)
  end.

End Script.
Import Script.

(** ** Interpreters the script declares support for

    The classifiers name Python 2.7 and Python 3.  Their text-mode
    [read()] differ, which is all the script sees of them. *)

Module Codec.

Local Open Scope N_scope.

Definition in_range (lo hi : N) (b : byte) : bool :=
  (lo <=? Byte.to_N b) && (Byte.to_N b <=? hi).

Definition cont : byte → bool := in_range 0x80 0xBF.

(** Well-formed UTF-8 as the strict decoder accepts it: shortest forms
    only, no surrogates, nothing above U+10FFFF. *)
Fixpoint utf8_valid (bs : list byte) : bool :=
  match bs with
  | [] => true
  | b0 :: r0 =>
      if in_range 0x00 0x7F b0 then utf8_valid r0
      else if in_range 0xC2 0xDF b0 then
        match r0 with
        | b1 :: r1 => cont b1 && utf8_valid r1
        | _ => false
        end
      else if in_range 0xE0 0xEF b0 then
        match r0 with
        | b1 :: b2 :: r2 =>
            (if in_range 0xE0 0xE0 b0 then in_range 0xA0 0xBF b1
             else if in_range 0xED 0xED b0 then in_range 0x80 0x9F b1
             else cont b1)
            && cont b2 && utf8_valid r2
        | _ => false
        end
      else if in_range 0xF0 0xF4 b0 then
        match r0 with
        | b1 :: b2 :: b3 :: r3 =>
            (if in_range 0xF0 0xF0 b0 then in_range 0x90 0xBF b1
             else if in_range 0xF4 0xF4 b0 then in_range 0x80 0x8F b1
             else cont b1)
            && cont b2 && cont b3 && utf8_valid r3
        | _ => false
        end
      else false
  end.

Definition ascii_valid (bs : list byte) : bool :=
  forallb (in_range 0x00 0x7F) bs.

Definition cr : ascii := "013"%char.

(** Universal newlines of Python 3 text files: CR LF and a lone CR are
    read as LF. *)
Fixpoint universal_newlines (s : string) : string :=
  match s with
  | EmptyString => EmptyString
  | String a r =>
      if Ascii.eqb a cr then
        match r with
        | String b r' =>
            if Ascii.eqb b nl then String nl (universal_newlines r')
            else String nl (universal_newlines r)
        | EmptyString => String nl EmptyString
        end
      else String a (universal_newlines r)
  end.

(** The string holds no carriage return. *)
Fixpoint no_cr (s : string) : bool :=
  match s with
  | EmptyString => true
  | String a r => negb (Ascii.eqb a cr) && no_cr r
  end.

(** Python 2.7: [str] is a byte string and [read()] returns the bytes. *)
Definition py27 (bs : list byte) : option string :=
  Some (string_of_list_byte bs).

(** Python 3 under a UTF-8 locale.  A [str] is kept in its UTF-8
    rendering, for which concatenation is that of the code points. *)
Definition py3_utf8 (bs : list byte) : option string :=
  if utf8_valid bs then Some (universal_newlines (string_of_list_byte bs))
  else None.

(** Python 3 under the C locale before the interpreter coerced it to
    UTF-8: the codec is ASCII. *)
Definition py3_ascii (bs : list byte) : option string :=
  if ascii_valid bs then Some (universal_newlines (string_of_list_byte bs))
  else None.

End Codec.

(** ** Vocabulary of the specification *)

Module Spec.

(** [README.rst] can be opened and a text-mode [read()] returns [s]. *)
Definition readme_reads (w : world) (s : string) : Prop :=
  ∃ n, fs w !! README = Some n ∧ readable n = true
       ∧ text_layer w (data n) = Some s.

(** What reading the readme gives, as one value. *)
Definition read_readme (w : world) : result string :=
  match fs w !! README with
  | None => Raise (FileNotFoundError README)
  | Some n =>
      if readable n then
        match text_layer w (data n) with
        | Some s => Ok s
        | None => Raise UnicodeDecodeError
        end
      else Raise (PermissionError README)
  end.

(** The world after one more call of [setup]. *)
Definition with_call (w : world) (kw : kwargs) : world :=
  World (fs w) (text_layer w) (open_files w) (setup_calls w ++ [kw]).

(** The run ended by an uncaught file-access error. *)
Definition fails_with_file_access_error (r : result unit * world) : bool :=
  match r with
  | (Raise e, _) => file_access_error e
  | (Ok _, _) => false
  end.

(** The precondition as the specification words it: the readme exists,
    may be opened, and its bytes are well-formed UTF-8. *)
Definition utf8_readable (w : world) : bool :=
  match fs w !! README with
  | Some n => readable n && Codec.utf8_valid (data n)
  | None => false
  end.

(** The files a descriptor installs: the scripts, and each data file
    under its target directory. *)
Definition installed_data (kw : kwargs) : list string :=
  '(dir, files) ← data_files kw; (λ f, dir +:+ "/" +:+ f) <$> files.

(** A requirement string is a distribution name followed by an optional
    constraint (extras, version specifiers, markers).  The name is made
    of letters, digits, [-], [_] and [.]. *)
Definition name_char (a : ascii) : bool :=
  let n := N_of_ascii a in
  ((65 <=? n) && (n <=? 90) || (97 <=? n) && (n <=? 122)
   || (48 <=? n) && (n <=? 57) || (n =? 45) || (n =? 46) || (n =? 95))%N.

Fixpoint requirement_split (req : string) : string * string :=
  match req with
  | EmptyString => (EmptyString, EmptyString)
  | String a r =>
      if name_char a then
        let '(n, c) := requirement_split r in (String a n, c)
      else (EmptyString, req)
  end.

Definition requirement_name (req : string) : string :=
  fst (requirement_split req).
Definition requirement_constraint (req : string) : string :=
  snd (requirement_split req).

(** The contract on the precondition, in the specification's words: the
    run ends in a file-access error exactly when the readme is not
    UTF-8 readable. *)
Definition utf8_contract (w : world) : Prop :=
  fails_with_file_access_error (module "__main__" w) = true
  ↔ utf8_readable w = false.

(** The contract on the manifest, in the specification's words: the
    presence of the three files is enough for the run to reach [setup]
    with the script and the three data files listed. *)
Definition presence_contract (w : world) : Prop :=
  is_Some (fs w !! "README.rst") → is_Some (fs w !! "LICENSE.txt") →
  is_Some (fs w !! "xpaste.1x") →
  ∃ kw, (module "__main__" w).1 = Ok ()
        ∧ setup_calls (module "__main__" w).2 = (setup_calls w ++ [kw])%list
        ∧ scripts kw = ["xpaste"]
        ∧ data_files kw = [("share/doc/xpaste", ["LICENSE.txt"; "README.rst"]);
                           ("share/man/man1", ["xpaste.1x"])].

(** A descriptor with its long description replaced. *)
Definition with_long_description (s : string) (kw : kwargs) : kwargs :=
  Kwargs (name kw) (version kw) (scripts kw) (data_files kw)
         (install_requires kw) (description kw) s (author kw)
         (author_email kw) (url kw) (license kw) (platforms kw)
         (classifiers kw).

(** No open descriptor of the process refers to the readme. *)
Definition no_readme_handle (w : world) : Prop :=
  ∀ fd f, open_files w !! fd = Some f → of_path f ≠ README.

(** The world in which [README.rst] has just been opened as [file]. *)
Definition opened (w : world) (file : nat) (n : node) : world :=
  World (fs w) (text_layer w)
        (<[file := OFile README n]> (open_files w)) (setup_calls w).

(** The calls of [setup] that a run of the module adds to the record. *)
Definition calls_made (dunder_name : string) (w : world) : list kwargs :=
  drop (length (setup_calls w)) (setup_calls (module dunder_name w).2).

(** The round trip in the specification's words: the long description
    handed to [setup] is the contents of the readme, byte for byte. *)
Definition verbatim_contract (w : world) : Prop :=
  ∀ n kw, fs w !! README = Some n → kw ∈ calls_made "__main__" w →
          list_byte_of_string (long_description kw) = data n.

(** Every configuration a run started in [w0] can be in.  The world is
    [w0] itself except while the [with] block holds the readme open,
    and after [setup] has been called. *)
Definition reach_inv (nm : string) (w0 : world) (cf : config) : Prop :=
  let '(c, w) := cf in
  match c with
  | AtGuard => w = w0
  | AtInit => nm = "__main__" ∧ w = w0
  | AtOpen ld => nm = "__main__" ∧ ld = [] ∧ w = w0
  | AtRead ld file =>
      nm = "__main__" ∧ ld = [] ∧
      ∃ n, fs w0 !! README = Some n ∧ readable n = true
           ∧ open_files w0 !! file = None ∧ w = opened w0 file n
  | AtExit ld file =>
      nm = "__main__" ∧
      ∃ n s, fs w0 !! README = Some n ∧ readable n = true
             ∧ text_layer w0 (data n) = Some s ∧ ld = [s]
             ∧ open_files w0 !! file = None ∧ w = opened w0 file n
  | AtUnwind file e =>
      nm = "__main__" ∧ e = UnicodeDecodeError ∧
      ∃ n, fs w0 !! README = Some n ∧ readable n = true
           ∧ text_layer w0 (data n) = None
           ∧ open_files w0 !! file = None ∧ w = opened w0 file n
  | AtSetup ld =>
      nm = "__main__" ∧ ∃ s, readme_reads w0 s ∧ ld = [s] ∧ w = w0
  | Done =>
      (nm ≠ "__main__" ∧ w = w0) ∨
      (nm = "__main__" ∧
       ∃ s, readme_reads w0 s ∧ w = with_call w0 (descriptor [s]))
  | Uncaught e =>
      nm = "__main__" ∧ read_readme w0 = Raise e ∧ w = w0
  end.

End Spec.
Import Spec.

(** ** Some checkouts and processes *)

Module Checkouts.

Definition text (s : string) : node := Node true (list_byte_of_string s).

Definition tty : node := Node true [].

(** Descriptors 0, 1 and 2 of a process started from a terminal. *)
Definition std_streams : gmap nat ofile :=
  {[ 0 := OFile "/dev/stdin" tty;
     1 := OFile "/dev/stdout" tty;
     2 := OFile "/dev/stderr" tty ]}.

Definition process (files : gmap string node)
    (layer : list byte → option string) : world :=
  World files layer std_streams [].

(** Everything but the readme. *)
Definition other_files : gmap string node :=
  {[ "LICENSE.txt" := text "GNU GENERAL PUBLIC LICENSE";
     "xpaste.1x" := text ".TH XPASTE 1x";
     "xpaste" := text "#!/usr/bin/env python";
     "setup.py" := text "#!/usr/bin/env python" ]}.

Definition checkout (readme : node) : gmap string node :=
  <["README.rst" := readme]> other_files.

Definition heading : string :=
  "xpaste" ++ String nl "======" ++ String nl "".

(** A readme that is well-formed UTF-8: [caf] followed by U+00E9. *)
Definition accented : list byte := [x63; x61; x66; xc3; xa9]%byte.

(** A readme in ISO 8859-1: [caf] followed by the single byte E9. *)
Definition latin1 : list byte := [x63; x61; x66; xe9]%byte.

Definition plain : world := process (checkout (text heading)) Codec.py3_utf8.
Definition plain27 : world :=
  process (checkout (text "paste text")) Codec.py27.
Definition no_readme : world := process other_files Codec.py3_utf8.
Definition protected : world :=
  process (checkout (Node false (list_byte_of_string heading)))
          Codec.py3_utf8.
Definition latin1_py3 : world :=
  process (checkout (Node true latin1)) Codec.py3_utf8.
Definition latin1_py27 : world :=
  process (checkout (Node true latin1)) Codec.py27.
Definition accented_c_locale : world :=
  process (checkout (Node true accented)) Codec.py3_ascii.

(** The plain checkout under the ASCII locale, and a readme with
    DOS line endings. *)
Definition plain_c_locale : world :=
  process (checkout (text heading)) Codec.py3_ascii.
Definition crlf : world :=
  process
    (checkout (text ("xpaste" ++ String Codec.cr (String nl "======"))))
    Codec.py3_utf8.

End Checkouts.

(** ** Basic facts about the built-ins *)

Section Builtins.

Implicit Types (w : world) (fd file : nat) (n : node) (s : string).

Lemma world_eta w :
  World (fs w) (text_layer w) (open_files w) (setup_calls w) = w.
Proof. by destruct w. Qed.

Lemma fresh_fd_unused w : open_files w !! fresh (dom (open_files w)) = None.
Proof. apply not_elem_of_dom, is_fresh. Qed.

Lemma py_open_ok w n :
  fs w !! README = Some n → readable n = true →
  py_open README w
  = (Ok (fresh (dom (open_files w))),
     opened w (fresh (dom (open_files w))) n).
Proof. intros Hn Hr. unfold py_open. by rewrite Hn, Hr. Qed.

Lemma py_open_inv w file w' :
  py_open README w = (Ok file, w') →
  ∃ n, fs w !! README = Some n ∧ readable n = true
       ∧ open_files w !! file = None ∧ w' = opened w file n.
Proof.
  unfold py_open. destruct (fs w !! README) as [n|] eqn:Hn; [|done].
  destruct (readable n) eqn:Hr; [|done].
  intros [= <- <-]. exists n. eauto using fresh_fd_unused.
Qed.

Lemma py_open_raise_inv w e w' :
  py_open README w = (Raise e, w') → read_readme w = Raise e ∧ w' = w.
Proof.
  unfold py_open, read_readme.
  destruct (fs w !! README) as [n|]; [destruct (readable n)|];
    naive_solver.
Qed.

Lemma py_read_opened w file n :
  py_read file (opened w file n)
  = match text_layer w (data n) with
    | Some s => (Ok s, opened w file n)
    | None => (Raise UnicodeDecodeError, opened w file n)
    end.
Proof. unfold py_read, opened. simpl. by rewrite lookup_insert_eq. Qed.

Lemma py_close_opened w file n :
  open_files w !! file = None →
  py_close file (opened w file n) = (Ok (), w).
Proof.
  intros Hfree. unfold py_close, opened. simpl.
  by rewrite delete_insert_id, world_eta.
Qed.

Lemma string_length_app (s t : string) :
  String.length (s ++ t) = String.length s + String.length t.
Proof. induction s as [|a s IH]; simpl; [done|by rewrite IH]. Qed.

Lemma join_singleton sep s : join sep [s] = s.
Proof. reflexivity. Qed.

Lemma join_cons sep s t l :
  join sep (s :: t :: l) = s ++ sep ++ join sep (t :: l).
Proof. reflexivity. Qed.

(** With two elements the separator does appear. *)
Example join_two : join sep3 ["a"; "b"] = "a" ++ sep3 ++ "b".
Proof. reflexivity. Qed.

(** The length of a join: the elements, and a separator between each
    two neighbours. *)
Lemma join_length sep l :
  String.length (join sep l)
  = sum_list (String.length <$> l) + String.length sep * pred (length l).
Proof.
  induction l as [|s [|t l] IH]; [simpl; lia..|].
  rewrite join_cons, !string_length_app, IH. simpl. lia.
Qed.

Lemma read_readme_ok w s : read_readme w = Ok s ↔ readme_reads w s.
Proof.
  unfold read_readme, readme_reads. split.
  - destruct (fs w !! README) as [n|]; [|done].
    destruct (readable n) eqn:Hr; [|done].
    destruct (text_layer w (data n)) eqn:Ht; [|done].
    intros [= <-]. eauto.
  - intros (n & -> & -> & ->). done.
Qed.


End Builtins.

(** ** What a run of the script does *)

Section Run.

Implicit Types (w : world) (s : string) (e : exn).

(** The whole effect of [main], in one equation: either the readme is
    read and one call of [setup] is added to an otherwise unchanged
    world, or the exception of the read escapes and nothing changes. *)
Lemma main_spec w :
  main w = match read_readme w with
           | Ok s => (Ok (), with_call w (descriptor [s]))
           | Raise e => (Raise e, w)
           end.
Proof.
  unfold main, with_open, mbind, M_bind, bind, finally, read_readme.
  destruct (fs w !! README) as [n|] eqn:Hn; cycle 1.
  { unfold py_open. by rewrite Hn. }
  destruct (readable n) eqn:Hr; cycle 1.
  { unfold py_open. by rewrite Hn, Hr. }
  rewrite (py_open_ok _ _ Hn Hr), py_read_opened.
  destruct (text_layer w (data n)) as [s|];
    unfold mret, M_ret, ret; cbv beta iota;
    by rewrite py_close_opened by apply fresh_fd_unused.
Qed.

Lemma main_ok w s :
  readme_reads w s → main w = (Ok (), with_call w (descriptor [s])).
Proof. intros H%read_readme_ok. by rewrite main_spec, H. Qed.

Lemma main_raise w e :
  read_readme w = Raise e → main w = (Raise e, w).
Proof. intros H. by rewrite main_spec, H. Qed.

Lemma module_main w : module "__main__" w = main w.
Proof. reflexivity. Qed.

Lemma module_import nm w : nm ≠ "__main__" → module nm w = (Ok (), w).
Proof. intros Hnm. unfold module. by rewrite decide_False. Qed.

End Run.

(** ** The statement-level semantics *)

Section Steps.

Variable nm : string.
Variable w0 : world.

Implicit Types (w : world) (c : control) (cf : config).

Lemma reach_inv_step cf cf' :
  reach_inv nm w0 cf → step nm cf cf' → reach_inv nm w0 cf'.
Proof.
  intros Hinv Hstep.
  destruct Hstep as
    [w Hnm | w Hnm | w | ld w file w' Hop | ld w e w' Hop
    | ld file w s w' Hrd | ld file w e w' Hrd
    | ld file w u w' Hcl | file e w u w' Hcl | ld w u w' Hset];
    simpl in *.
  - by subst.
  - left. by subst.
  - by destruct Hinv as [? ->].
  - destruct Hinv as (? & ? & ->).
    apply py_open_inv in Hop as (n & ? & ? & ? & ->). eauto 10.
  - destruct Hinv as (? & ? & ->).
    apply py_open_raise_inv in Hop as [? ->]. done.
  - destruct Hinv as (? & -> & n & ? & ? & ? & ->).
    rewrite py_read_opened in Hrd.
    destruct (text_layer w0 (data n)) as [t|] eqn:Ht; [|done].
    injection Hrd as <- <-. split; [done|]. exists n, t. eauto 10.
  - destruct Hinv as (? & -> & n & ? & ? & ? & ->).
    rewrite py_read_opened in Hrd.
    destruct (text_layer w0 (data n)) as [t|] eqn:Ht; [done|].
    injection Hrd as <- <-. eauto 10.
  - destruct Hinv as (? & n & s & ? & ? & ? & -> & ? & ->).
    rewrite py_close_opened in Hcl by done. injection Hcl as _ <-.
    split; [done|]. exists s. unfold readme_reads. eauto 10.
  - destruct Hinv as (? & -> & n & Hn & Hr & Ht & ? & ->).
    rewrite py_close_opened in Hcl by done. injection Hcl as _ <-.
    split; [done|]. split; [|done].
    unfold read_readme. by rewrite Hn, Hr, Ht.
  - destruct Hinv as (? & s & ? & -> & ->).
    injection Hset as _ <-. right. eauto.
Qed.

Lemma reachable_inv cf :
  rtc (step nm) (AtGuard, w0) cf → reach_inv nm w0 cf.
Proof.
  revert cf. apply rtc_ind_r; [done|].
  intros cf cf' _ Hstep IH. by apply (reach_inv_step cf).
Qed.

(** The descriptors held by the process, in every reachable
    configuration: those of the start, and at most one more, the
    readme's, inside the [with] block only. *)
Lemma reachable_open_files c w :
  rtc (step nm) (AtGuard, w0) (c, w) →
  if after_with c then open_files w = open_files w0
  else open_files w = open_files w0 ∨
       ∃ file n, open_files w0 !! file = None
                 ∧ open_files w = <[file := OFile README n]> (open_files w0).
Proof.
  intros Hinv%reachable_inv. destruct c; simpl in *.
  - left. by subst.
  - left. by destruct Hinv as [_ ->].
  - left. by destruct Hinv as (_ & _ & ->).
  - right. destruct Hinv as (_ & _ & n & _ & _ & ? & ->). eauto.
  - right. destruct Hinv as (_ & n & s & _ & _ & _ & _ & ? & ->). eauto.
  - right. destruct Hinv as (_ & _ & n & _ & _ & _ & ? & ->). eauto.
  - by destruct Hinv as (_ & s & _ & _ & ->).
  - by destruct Hinv as [[_ ->]|(_ & s & _ & ->)].
  - by destruct Hinv as (_ & _ & ->).
Qed.

End Steps.

(** The monadic reading and the statement-level reading agree: the
    steps lead from the guard to the configuration [module] computes,
    which is final, and each configuration has at most one successor. *)
Lemma module_steps nm w :
  rtc (step nm) (AtGuard, w) (final (module nm w)).
Proof.
  unfold module. case_decide as Hnm; cycle 1.
  { apply rtc_once. by constructor. }
  eapply rtc_l; [by apply step_guard_main|].
  eapply rtc_l; [apply step_init|].
  rewrite main_spec. unfold read_readme.
  destruct (fs w !! README) as [n|] eqn:Hn; cycle 1.
  { apply rtc_once, step_open_raise. unfold py_open. by rewrite Hn. }
  destruct (readable n) eqn:Hr; cycle 1.
  { apply rtc_once, step_open_raise. unfold py_open. by rewrite Hn, Hr. }
  eapply rtc_l; [by apply step_open, py_open_ok|].
  set (file := fresh (dom (open_files w))).
  assert (open_files w !! file = None) by apply fresh_fd_unused.
  destruct (text_layer w (data n)) as [s|] eqn:Ht.
  - eapply rtc_l.
    { apply step_read with (s := s). by rewrite py_read_opened, Ht. }
    eapply rtc_l; [by eapply step_exit, py_close_opened|].
    apply rtc_once. by eapply step_setup.
  - eapply rtc_l.
    { eapply step_read_raise. by rewrite py_read_opened, Ht. }
    apply rtc_once. by eapply step_unwind, py_close_opened.
Qed.

Lemma step_deterministic nm cf cf1 cf2 :
  step nm cf cf1 → step nm cf cf2 → cf1 = cf2.
Proof.
  destruct 1; inversion 1; subst; try congruence.
Qed.

Lemma final_no_step nm r cf : ¬ step nm (final r) cf.
Proof. destruct r as [[[]|e] w]; inversion 1. Qed.

(** So a run that can go no further has ended where [module] says. *)
Lemma module_steps_final nm w cf :
  rtc (step nm) (AtGuard, w) cf → nf (step nm) cf →
  cf = final (module nm w).
Proof.
  intros Hrun Hnf. pose proof (module_steps nm w) as Hmod.
  induction Hrun as [cf|cf cf1 cf2 Hstep Hrun IH].
  - apply rtc_inv in Hmod as [?|(cf' & Hstep & _)]; [done|].
    destruct Hnf. by exists cf'.
  - apply IH; [done|].
    apply rtc_inv in Hmod as [Heq|(cf' & Hstep' & Hrest)].
    + rewrite Heq in Hstep. by apply final_no_step in Hstep.
    + by rewrite (step_deterministic _ _ _ _ Hstep Hstep').
Qed.

(** The statements up to the call of [setup], when the readme reads. *)
Lemma setup_reached w s :
  readme_reads w s →
  rtc (step "__main__") (AtGuard, w) (AtSetup [s], w).
Proof.
  intros (n & Hn & Hr & Ht).
  set (file := fresh (dom (open_files w))).
  assert (open_files w !! file = None) by apply fresh_fd_unused.
  eapply rtc_l; [by apply step_guard_main|].
  eapply rtc_l; [apply step_init|].
  eapply rtc_l; [by apply step_open, py_open_ok|].
  eapply rtc_l.
  { apply step_read with (s := s). by rewrite py_read_opened, Ht. }
  apply rtc_once. by eapply step_exit, py_close_opened.
Qed.

(** The calls a run adds: one when the readme reads, none otherwise. *)
Lemma calls_made_main w :
  calls_made "__main__" w
  = match read_readme w with
    | Ok s => [descriptor [s]]
    | Raise _ => []
    end.
Proof.
  unfold calls_made. rewrite module_main, main_spec.
  destruct (read_readme w); simpl.
  - by rewrite drop_app_length.
  - by rewrite drop_all.
Qed.

Lemma calls_made_import nm w : nm ≠ "__main__" → calls_made nm w = [].
Proof.
  intros Hnm. unfold calls_made. rewrite module_import by done.
  apply drop_all.
Qed.

Lemma calls_made_descriptor nm w kw :
  kw ∈ calls_made nm w → ∃ s, readme_reads w s ∧ kw = descriptor [s].
Proof.
  destruct (decide (nm = "__main__")) as [->|Hnm]; cycle 1.
  { rewrite calls_made_import by done. by intros ?%elem_of_nil. }
  rewrite calls_made_main.
  destruct (read_readme w) as [s|e] eqn:Hread.
  - intros ->%list_elem_of_singleton. exists s.
    by apply read_readme_ok in Hread.
  - by intros ?%elem_of_nil.
Qed.

(** ** Facts about the text layers *)

Section TextLayers.

Import Codec.

Implicit Types (s : string) (bs : list byte).

Lemma universal_newlines_cons a s :
  universal_newlines (String a s)
  = if Ascii.eqb a cr then
      match s with
      | String b r' =>
          if Ascii.eqb b nl then String nl (universal_newlines r')
          else String nl (universal_newlines s)
      | EmptyString => String nl EmptyString
      end
    else String a (universal_newlines s).
Proof. by destruct s. Qed.

(** Text without a carriage return passes the newline translation
    unchanged. *)
Lemma universal_newlines_id s : no_cr s = true → universal_newlines s = s.
Proof.
  induction s as [|a s IH]; [done|].
  intros [Ha Hs]%andb_prop. rewrite universal_newlines_cons.
  apply negb_true_iff in Ha. rewrite Ha. by rewrite IH.
Qed.

(** The newline translation leaves no carriage return behind. *)
Lemma universal_newlines_no_cr s : no_cr (universal_newlines s) = true.
Proof.
  enough (no_cr (universal_newlines s) = true
          ∧ ∀ a, no_cr (universal_newlines (String a s)) = true) as [? _]
    by done.
  induction s as [|b r [IHr IHbr]].
  - split; [done|]. intros a. rewrite universal_newlines_cons.
    destruct (Ascii.eqb a cr) eqn:Ha; simpl; [done|]. by rewrite Ha.
  - split; [apply IHbr|]. intros a. rewrite universal_newlines_cons.
    destruct (Ascii.eqb a cr) eqn:Ha.
    + destruct (Ascii.eqb b nl); simpl; [apply IHr|apply IHbr].
    + change (negb (Ascii.eqb a cr)
              && no_cr (universal_newlines (String b r)) = true).
      by rewrite Ha, IHbr.
Qed.

(** Seven-bit bytes are well-formed UTF-8. *)
Lemma ascii_valid_utf8_valid bs : ascii_valid bs = true → utf8_valid bs = true.
Proof.
  induction bs as [|b bs IH]; [done|].
  intros [Hb Hbs]%andb_prop.
  unfold utf8_valid; fold utf8_valid.
  rewrite Hb. by apply IH.
Qed.

Lemma py3_ascii_utf8 bs s : py3_ascii bs = Some s → py3_utf8 bs = Some s.
Proof.
  unfold py3_ascii, py3_utf8.
  destruct (ascii_valid bs) eqn:Hv; [|done].
  by rewrite (ascii_valid_utf8_valid _ Hv).
Qed.

End TextLayers.

(** ** The packaging contract *)

(** C1, as stated, fails: under Python 3 a readme with DOS line
    endings is handed to [setup] with its line endings translated, so
    the long description is not the contents of the file. *)
Lemma crlf_readme_is_translated :
  ¬ verbatim_contract Checkouts.crlf
  ∧ (∃ n, fs Checkouts.crlf !! README = Some n
          ∧ string_of_list_byte (data n)
            = "xpaste" ++ String Codec.cr (String nl "======"))
  ∧ long_description <$> calls_made "__main__" Checkouts.crlf
    = ["xpaste" ++ String nl "======"].
Proof.
  split_and!.
  - intros Hc.
    specialize (Hc (Checkouts.text
                      ("xpaste" ++ String Codec.cr (String nl "======")))
                   (descriptor ["xpaste" ++ String nl "======"])).
    assert (list_byte_of_string ("xpaste" ++ String nl "======")
            = list_byte_of_string
                ("xpaste" ++ String Codec.cr (String nl "======")))
      as Heq; [|vm_compute in Heq; discriminate].
    apply Hc; vm_compute; [reflexivity|constructor].
  - eexists. split; vm_compute; reflexivity.
  - vm_compute. reflexivity.
Qed.

(** C1, amended.  When [README.rst] can be opened and the read returns
    the string [s], the [long_description] passed to [setup] is [s]
    itself: a one-element list joined with the three-newline separator
    is its element, and the script changes nothing of its own.  That
    string is the file byte for byte under Python 2.7, and under
    Python 3 with a UTF-8 locale when the file holds no carriage
    return. *)
Theorem long_description_verbatim (w : world) (n : node) (s : string) :
  fs w !! README = Some n → readable n = true →
  text_layer w (data n) = Some s →
  join sep3 [s] = s ∧
  ∃ kw, module "__main__" w = (Ok (), with_call w kw)
        ∧ calls_made "__main__" w = [kw]
        ∧ long_description kw = s
        ∧ (text_layer w = Codec.py27 →
           list_byte_of_string (long_description kw) = data n)
        ∧ (text_layer w = Codec.py3_utf8 →
           Codec.no_cr (string_of_list_byte (data n)) = true →
           list_byte_of_string (long_description kw) = data n).
Proof.
  intros Hn Hr Ht.
  assert (readme_reads w s) as Hs by (exists n; eauto).
  split; [apply join_singleton|].
  exists (descriptor [s]). split_and!.
  - rewrite module_main. by apply main_ok.
  - rewrite calls_made_main. apply read_readme_ok in Hs. by rewrite Hs.
  - apply join_singleton.
  - intros Hl. rewrite Hl in Ht. injection Ht as <-.
    simpl. apply list_byte_of_string_of_list_byte.
  - intros Hl Hcr. rewrite Hl in Ht. unfold Codec.py3_utf8 in Ht.
    destruct (Codec.utf8_valid (data n)); [|done].
    injection Ht as <-. simpl.
    rewrite universal_newlines_id by done.
    apply list_byte_of_string_of_list_byte.
Qed.

Lemma long_description_verbatim_witness :
  ∃ kw, calls_made "__main__" Checkouts.plain = [kw]
        ∧ long_description kw = Checkouts.heading
        ∧ list_byte_of_string (long_description kw)
          = list_byte_of_string Checkouts.heading.
Proof.
  destruct (long_description_verbatim Checkouts.plain
              (Checkouts.text Checkouts.heading) Checkouts.heading)
    as (_ & kw & _ & Hcalls & Hld & _ & Hbytes);
    [vm_compute; reflexivity..|].
  exists kw. split_and!; [done..|].
  apply Hbytes; vm_compute; reflexivity.
Defined.

(** C2.  When [README.rst] is absent, [open] raises, the exception is a
    file-access error and escapes the script, the world is left as it
    was, and no configuration of the run is at, or past, the call of
    [setup]. *)
Theorem absent_readme_aborts (w : world) :
  fs w !! README = None →
  module "__main__" w = (Raise (FileNotFoundError README), w)
  ∧ fails_with_file_access_error (module "__main__" w) = true
  ∧ calls_made "__main__" w = []
  ∧ ∀ c w', rtc (step "__main__") (AtGuard, w) (c, w') →
            w' = w ∧ (∀ ld, c ≠ AtSetup ld) ∧ c ≠ Done.
Proof.
  intros Habs.
  assert (read_readme w = Raise (FileNotFoundError README)) as Hread.
  { unfold read_readme. by rewrite Habs. }
  assert (∀ s, ¬ readme_reads w s) as Hnone.
  { intros s (n & Hn & _). congruence. }
  split_and!.
  - rewrite module_main. by apply main_raise.
  - rewrite module_main, (main_raise _ _ Hread). done.
  - by rewrite calls_made_main, Hread.
  - intros c w' Hinv%reachable_inv. destruct c; simpl in Hinv.
    + done.
    + by destruct Hinv as [_ ->].
    + by destruct Hinv as (_ & _ & ->).
    + destruct Hinv as (_ & _ & n & ? & _). congruence.
    + destruct Hinv as (_ & n & ? & ? & _). congruence.
    + destruct Hinv as (_ & _ & n & ? & _). congruence.
    + destruct Hinv as (_ & s & ?%Hnone & _). done.
    + destruct Hinv as [[? _]|(_ & s & ?%Hnone & _)]; done.
    + by destruct Hinv as (_ & _ & ->).
Qed.

Lemma absent_readme_aborts_witness :
  module "__main__" Checkouts.no_readme
  = (Raise (FileNotFoundError README), Checkouts.no_readme).
Proof.
  apply (absent_readme_aborts Checkouts.no_readme).
  vm_compute. reflexivity.
Defined.

(** C3, as stated, fails: the three files exist, yet the readme is not
    text the interpreter can decode, the read raises and [setup] is not
    called. *)
Lemma existing_files_do_not_suffice :
  ¬ presence_contract Checkouts.latin1_py3
  ∧ (module "__main__" Checkouts.latin1_py3).1 = Raise UnicodeDecodeError
  ∧ calls_made "__main__" Checkouts.latin1_py3 = [].
Proof.
  split_and!; [|vm_compute; reflexivity..].
  intros Hc. destruct Hc as (kw & Hok & _); [vm_compute; eauto..|].
  vm_compute in Hok. discriminate.
Qed.

(** The same with a readme that exists and may not be read. *)
Lemma protected_readme_aborts :
  let w := Checkouts.protected in
  is_Some (fs w !! "README.rst")
  ∧ (module "__main__" w).1 = Raise (PermissionError README)
  ∧ calls_made "__main__" w = [].
Proof. split_and!; vm_compute; eauto. Qed.

(** C3, amended.  In a checkout whose [README.rst] can be opened and
    read as text, and in which [LICENSE.txt] and [xpaste.1x] exist, the
    run reaches [setup], and the descriptor it passes lists the script
    [xpaste], [LICENSE.txt] and [README.rst] under [share/doc/xpaste],
    [xpaste.1x] under [share/man/man1], and nothing else. *)
Theorem readable_checkout_manifest (w : world) (s : string) :
  readme_reads w s →
  is_Some (fs w !! "LICENSE.txt") →
  is_Some (fs w !! "xpaste.1x") →
  ∃ kw, module "__main__" w = (Ok (), with_call w kw)
        ∧ calls_made "__main__" w = [kw]
        ∧ scripts kw = ["xpaste"]
        ∧ data_files kw = [("share/doc/xpaste", ["LICENSE.txt"; "README.rst"]);
                           ("share/man/man1", ["xpaste.1x"])]
        ∧ installed_data kw = ["share/doc/xpaste/LICENSE.txt";
                               "share/doc/xpaste/README.rst";
                               "share/man/man1/xpaste.1x"].
Proof.
  intros Hs _ _. exists (descriptor [s]). split_and!; try reflexivity.
  - rewrite module_main. by apply main_ok.
  - rewrite calls_made_main. apply read_readme_ok in Hs. by rewrite Hs.
Qed.

Lemma readable_checkout_manifest_witness :
  ∃ kw, calls_made "__main__" Checkouts.plain27 = [kw]
        ∧ scripts kw = ["xpaste"]
        ∧ installed_data kw = ["share/doc/xpaste/LICENSE.txt";
                               "share/doc/xpaste/README.rst";
                               "share/man/man1/xpaste.1x"].
Proof.
  destruct (readable_checkout_manifest Checkouts.plain27 "paste text")
    as (kw & _ & ? & ? & _ & ?).
  - eexists. split_and!; vm_compute; reflexivity.
  - vm_compute. eauto.
  - vm_compute. eauto.
  - eauto.
Defined.

(** C4.  In every world and under every [__name__], each descriptor the
    run passes to [setup] declares exactly one requirement,
    [python-xlib], and that requirement is a bare distribution name with
    no constraint after it.  The list is a literal of the descriptor, so
    the same holds whatever the local list is.  And a run as the main
    program with a readme that reads does pass one descriptor, which
    declares that list. *)
Theorem install_requires_single_unconstrained :
  (∀ nm w, Forall (λ kw, install_requires kw = ["python-xlib"])
                  (calls_made nm w))
  ∧ (∀ ld, install_requires (descriptor ld) = ["python-xlib"]
           ∧ length (install_requires (descriptor ld)) = 1)
  ∧ requirement_name "python-xlib" = "python-xlib"
  ∧ requirement_constraint "python-xlib" = ""
  ∧ (∀ w s, readme_reads w s →
       ∃ kw, module "__main__" w = (Ok (), with_call w kw)
             ∧ calls_made "__main__" w = [kw]
             ∧ install_requires kw = ["python-xlib"]
             ∧ length (install_requires kw) = 1
             ∧ Forall (λ r, requirement_constraint r = "")
                      (install_requires kw)).
Proof.
  split_and!; try done.
  - intros nm w. apply Forall_forall.
    by intros kw (s & _ & ->)%calls_made_descriptor.
  - intros w s Hs. exists (descriptor [s]). split_and!; try done.
    + rewrite module_main. by apply main_ok.
    + rewrite calls_made_main. apply read_readme_ok in Hs. by rewrite Hs.
    + by repeat constructor.
Qed.

Lemma install_requires_single_unconstrained_witness :
  ∃ kw, calls_made "__main__" Checkouts.plain = [kw]
        ∧ install_requires kw = ["python-xlib"].
Proof.
  destruct install_requires_single_unconstrained as (_ & _ & _ & _ & Hrun).
  destruct (Hrun Checkouts.plain Checkouts.heading)
    as (kw & _ & ? & ? & _).
  - eexists. split_and!; vm_compute; reflexivity.
  - eauto.
Defined.


(** And the other way round: under an ASCII locale a readme that is
    well-formed UTF-8 makes the read raise. *)
Lemma utf8_precondition_not_sufficient :
  ¬ utf8_contract Checkouts.accented_c_locale
  ∧ utf8_readable Checkouts.accented_c_locale = true
  ∧ (module "__main__" Checkouts.accented_c_locale).1
    = Raise UnicodeDecodeError.
Proof.
  split_and!; [|vm_compute; reflexivity..].
  intros [Hc _]. specialize (Hc eq_refl). vm_compute in Hc. discriminate.
Qed.


(** C6.  Each descriptor the run passes to [setup] has name [xpaste],
    version [1.6], license [GPLv3+] and the platform list [linux]
    alone; and a run as the main program with a readme that reads does
    pass one descriptor, which carries these values. *)
Theorem metadata_surface :
  (∀ nm w, Forall (λ kw, name kw = "xpaste" ∧ version kw = "1.6"
                         ∧ license kw = "GPLv3+"
                         ∧ platforms kw = ["linux"])
                  (calls_made nm w))
  ∧ (∀ ld, name (descriptor ld) = "xpaste"
           ∧ version (descriptor ld) = "1.6"
           ∧ license (descriptor ld) = "GPLv3+"
           ∧ platforms (descriptor ld) = ["linux"])
  ∧ (∀ w s, readme_reads w s →
       ∃ kw, module "__main__" w = (Ok (), with_call w kw)
             ∧ calls_made "__main__" w = [kw]
             ∧ name kw = "xpaste" ∧ version kw = "1.6"
             ∧ license kw = "GPLv3+" ∧ platforms kw = ["linux"]).
Proof.
  split_and!; [|done|].
  - intros nm w. apply Forall_forall.
    by intros kw (s & _ & ->)%calls_made_descriptor.
  - intros w s Hs. exists (descriptor [s]). split_and!; try done.
    + rewrite module_main. by apply main_ok.
    + rewrite calls_made_main. apply read_readme_ok in Hs. by rewrite Hs.
Qed.

Lemma metadata_surface_witness :
  ∃ kw, calls_made "__main__" Checkouts.plain27 = [kw]
        ∧ name kw = "xpaste" ∧ version kw = "1.6"
        ∧ license kw = "GPLv3+" ∧ platforms kw = ["linux"].
Proof.
  destruct metadata_surface as (_ & _ & Hrun).
  destruct (Hrun Checkouts.plain27 "paste text") as (kw & _ & Hkw).
  - eexists. split_and!; vm_compute; reflexivity.
  - eauto.
Defined.

(** C7.  Two runs, in any two worlds, agree on the name and on the
    version of the descriptors they pass to [setup], which are the
    literals [xpaste] and [1.6]. *)
Theorem name_version_deterministic (nm1 nm2 : string) (w1 w2 : world)
    (kw1 kw2 : kwargs) :
  kw1 ∈ calls_made nm1 w1 →
  kw2 ∈ calls_made nm2 w2 →
  name kw1 = name kw2 ∧ version kw1 = version kw2
  ∧ name kw1 = "xpaste" ∧ version kw1 = "1.6".
Proof.
  intros (s1 & _ & ->)%calls_made_descriptor.
  intros (s2 & _ & ->)%calls_made_descriptor.
  done.
Qed.

Lemma name_version_deterministic_witness :
  let kw1 := descriptor [Checkouts.heading] in
  let kw2 := descriptor ["paste text"] in
  long_description kw1 ≠ long_description kw2
  ∧ name kw1 = name kw2 ∧ version kw1 = version kw2.
Proof.
  intros kw1 kw2. split; [discriminate|].
  destruct (name_version_deterministic "__main__" "__main__"
              Checkouts.plain Checkouts.plain27 kw1 kw2)
    as (? & ? & _).
  - vm_compute. constructor.
  - vm_compute. constructor.
  - eauto.
Defined.

(** C8.  The descriptors of the process are those it started with, plus
    at most one, the readme's, and only inside the [with] block.  In
    every configuration after the block, reached by its normal exit or
    by an exception, the table is again the one of the start, so a
    process that held no descriptor of [README.rst] holds none. *)
Theorem readme_handle_released (nm : string) (w : world) (c : control)
    (w' : world) :
  rtc (step nm) (AtGuard, w) (c, w') →
  (open_files w' = open_files w ∨
   ∃ file n, open_files w !! file = None
             ∧ open_files w' = <[file := OFile README n]> (open_files w))
  ∧ (after_with c = true →
     open_files w' = open_files w
     ∧ (no_readme_handle w → no_readme_handle w')).
Proof.
  intros Hopen%reachable_open_files.
  destruct (after_with c); split.
  - by left.
  - intros _. split; [done|]. unfold no_readme_handle. by rewrite Hopen.
  - done.
  - done.
Qed.

Lemma readme_handle_released_witness :
  open_files (final (module "__main__" Checkouts.plain)).2
  = open_files Checkouts.plain
  ∧ open_files (final (module "__main__" Checkouts.latin1_py3)).2
    = open_files Checkouts.latin1_py3.
Proof.
  split.
  - eapply (readme_handle_released "__main__" Checkouts.plain
              (final (module "__main__" Checkouts.plain)).1).
    + rewrite <- surjective_pairing. apply module_steps.
    + vm_compute. reflexivity.
  - eapply (readme_handle_released "__main__" Checkouts.latin1_py3
              (final (module "__main__" Checkouts.latin1_py3)).1).
    + rewrite <- surjective_pairing. apply module_steps.
    + vm_compute. reflexivity.
Defined.

(** C9.  Whenever control is at the call of [setup], the local list
    holds exactly one string, the text read from the readme, and the
    [long_description] computed from it is that string: the join adds
    no separator. *)
Theorem one_long_description_at_setup (nm : string) (w : world)
    (ld : list string) (w' : world) :
  rtc (step nm) (AtGuard, w) (AtSetup ld, w') →
  length ld = 1
  ∧ ∃ s, ld = [s] ∧ readme_reads w s
         ∧ long_description (descriptor ld) = s
         ∧ String.length (long_description (descriptor ld))
           = String.length s.
Proof.
  intros Hinv%reachable_inv. simpl in Hinv.
  destruct Hinv as (_ & s & Hs & -> & _).
  split; [done|]. exists s. split_and!; done.
Qed.

Lemma one_long_description_at_setup_witness :
  length [Checkouts.heading] = 1.
Proof.
  eapply (one_long_description_at_setup "__main__" Checkouts.plain
            [Checkouts.heading] Checkouts.plain).
  apply setup_reached.
  eexists. split_and!; vm_compute; reflexivity.
Defined.

(** C10.  Under any [__name__] other than [__main__] the module body
    returns at once: the world (files, descriptors, calls of [setup]) is
    the same after as before, the run passes through no statement of
    the guarded block, and it calls [setup] not at all.  Any
    configuration inside the block is reached under [__main__] only. *)
Theorem import_has_no_effect (nm : string) (w : world) :
  nm ≠ "__main__" →
  module nm w = (Ok (), w)
  ∧ calls_made nm w = []
  ∧ ∀ c w', rtc (step nm) (AtGuard, w) (c, w') →
            w' = w ∧ (c = AtGuard ∨ c = Done).
Proof.
  intros Hnm. split_and!.
  - by apply module_import.
  - by apply calls_made_import.
  - intros c w' Hinv%reachable_inv.
    destruct c; simpl in Hinv;
      [eauto | | | | | | | destruct Hinv as [[_ ->]|Hinv]; [eauto|] | ];
      by destruct Hinv as [? _].
Qed.

Lemma import_has_no_effect_witness :
  module "setup" Checkouts.plain = (Ok (), Checkouts.plain).
Proof.
  apply (import_has_no_effect "setup" Checkouts.plain).
  discriminate.
Defined.

(** ** Further properties of the script *)

Section Calls.

Implicit Types (w : world) (s : string) (e : exn) (kw : kwargs).

(** The record of calls after a run: what was there, then the calls of
    the run. *)
Lemma setup_calls_module nm w :
  setup_calls (module nm w).2 = (setup_calls w ++ calls_made nm w)%list.
Proof.
  unfold calls_made. destruct (decide (nm = "__main__")) as [->|Hnm].
  - rewrite module_main, main_spec. destruct (read_readme w); simpl.
    + by rewrite drop_app_length.
    + by rewrite drop_all, app_nil_r.
  - rewrite module_import by done. simpl. by rewrite drop_all, app_nil_r.
Qed.

(** The script calls [setup] at most once, and once exactly when it runs
    as the main program and the readme reads; earlier records of the
    process are kept in front of the new one. *)
Theorem setup_called_at_most_once (nm : string) (w : world) :
  (length (calls_made nm w) ≤ 1)%nat
  ∧ (length (calls_made nm w) = 1
     ↔ nm = "__main__" ∧ ∃ s, readme_reads w s)
  ∧ setup_calls (module nm w).2 = (setup_calls w ++ calls_made nm w)%list.
Proof.
  split_and!; [| |apply setup_calls_module].
  - destruct (decide (nm = "__main__")) as [->|Hnm].
    + rewrite calls_made_main. destruct (read_readme w); simpl; lia.
    + rewrite calls_made_import by done. simpl. lia.
  - destruct (decide (nm = "__main__")) as [->|Hnm].
    + rewrite calls_made_main.
      destruct (read_readme w) as [s|e] eqn:Hread; simpl.
      * apply read_readme_ok in Hread. split; eauto.
      * split; [done|]. intros (_ & s & Hs%read_readme_ok). congruence.
    + rewrite calls_made_import by done. simpl.
      split; [done|]. by intros [? _].
Qed.

(** Whatever the readme holds, it reaches [setup] through
    [long_description] alone: two descriptors of any two runs are equal
    up to that field, and equal when the texts read are. *)
Theorem descriptors_differ_only_in_long_description
    (nm1 nm2 : string) (w1 w2 : world) (kw1 kw2 : kwargs) :
  kw1 ∈ calls_made nm1 w1 →
  kw2 ∈ calls_made nm2 w2 →
  kw2 = with_long_description (long_description kw2) kw1
  ∧ (long_description kw1 = long_description kw2 → kw1 = kw2).
Proof.
  intros (s1 & _ & ->)%calls_made_descriptor.
  intros (s2 & _ & ->)%calls_made_descriptor.
  split; [done|]. simpl. by intros ->.
Qed.

Lemma descriptors_differ_only_in_long_description_witness :
  descriptor ["paste text"]
  = with_long_description "paste text" (descriptor [Checkouts.heading]).
Proof.
  destruct (descriptors_differ_only_in_long_description
              "__main__" "__main__" Checkouts.plain Checkouts.plain27
              (descriptor [Checkouts.heading]) (descriptor ["paste text"]))
    as [Heq _].
  - vm_compute. constructor.
  - vm_compute. constructor.
  - exact Heq.
Defined.

End Calls.

Section Statements.

Implicit Types (w : world) (c : control) (cf : config) (n : node).

(** The statements up to the read, when the readme can be opened. *)
Lemma read_reached w n :
  fs w !! README = Some n → readable n = true →
  rtc (step "__main__") (AtGuard, w)
      (AtRead [] (fresh (dom (open_files w))),
       opened w (fresh (dom (open_files w))) n).
Proof.
  intros Hn Hr.
  eapply rtc_l; [by apply step_guard_main|].
  eapply rtc_l; [apply step_init|].
  apply rtc_once. by apply step_open, py_open_ok.
Qed.

(** When control is at the read, the descriptor in [file] is one the
    script opened itself, it is open on the readme, and the read does
    not find it closed. *)
Theorem read_only_while_open (nm : string) (w : world)
    (ld : list string) (file : nat) (w' : world) :
  rtc (step nm) (AtGuard, w) (AtRead ld file, w') →
  open_files w !! file = None
  ∧ (∃ n, fs w !! README = Some n
          ∧ open_files w' !! file = Some (OFile README n))
  ∧ (py_read file w').1 ≠ Raise ValueError.
Proof.
  intros Hinv%reachable_inv. simpl in Hinv.
  destruct Hinv as (_ & _ & n & Hn & _ & Hfree & ->).
  split_and!; [done| |].
  - exists n. split; [done|]. unfold opened. simpl.
    apply lookup_insert_eq.
  - rewrite py_read_opened. by destruct (text_layer w (data n)).
Qed.

Lemma read_only_while_open_witness :
  (py_read 3 (opened Checkouts.latin1_py3 3 (Node true Checkouts.latin1))).1
  ≠ Raise ValueError.
Proof.
  eapply (read_only_while_open "__main__" Checkouts.latin1_py3 []).
  apply (read_reached Checkouts.latin1_py3 (Node true Checkouts.latin1));
    vm_compute; reflexivity.
Defined.

(** Up to the call of [setup] the script only reads: in every
    configuration before that call, and at the end of a run that did
    not enter the guarded block, the files and the interpreter's text
    layer are as they were, every descriptor the process held is still
    open on the same file, and [setup] has not been called. *)
Theorem run_frame (nm : string) (w : world) (c : control) (w' : world) :
  rtc (step nm) (AtGuard, w) (c, w') →
  (c = Done → nm ≠ "__main__") →
  fs w' = fs w
  ∧ text_layer w' = text_layer w
  ∧ open_files w ⊆ open_files w'
  ∧ setup_calls w' = setup_calls w.
Proof.
  intros Hinv%reachable_inv Hdone.
  assert (∀ file n, open_files w !! file = None →
            open_files w ⊆ open_files (opened w file n)) as Hsub.
  { intros file n Hfree. by apply insert_subseteq. }
  destruct c; simpl in Hinv.
  - by subst.
  - by destruct Hinv as [_ ->].
  - by destruct Hinv as (_ & _ & ->).
  - destruct Hinv as (_ & _ & n & _ & _ & ? & ->). split_and!; auto.
  - destruct Hinv as (_ & n & s & _ & _ & _ & _ & ? & ->).
    split_and!; auto.
  - destruct Hinv as (_ & _ & n & _ & _ & _ & ? & ->). split_and!; auto.
  - by destruct Hinv as (_ & s & _ & _ & ->).
  - destruct Hinv as [[_ ->]|(Hnm & _)]; [done|].
    by destruct Hdone.
  - by destruct Hinv as (_ & _ & ->).
Qed.

Lemma run_frame_witness :
  fs (opened Checkouts.plain 3 (Checkouts.text Checkouts.heading))
  = fs Checkouts.plain
  ∧ open_files Checkouts.plain
    ⊆ open_files (opened Checkouts.plain 3 (Checkouts.text Checkouts.heading)).
Proof.
  destruct (run_frame "__main__" Checkouts.plain (AtRead [] 3)
              (opened Checkouts.plain 3 (Checkouts.text Checkouts.heading)))
    as (? & _ & ? & _); [| discriminate | done].
  apply (read_reached Checkouts.plain (Checkouts.text Checkouts.heading));
    vm_compute; reflexivity.
Defined.

End Statements.

Section Descriptors.

Implicit Types (w : world) (fd : nat) (n : node) (path : string).

Lemma py_open_path_inv path w fd w' :
  py_open path w = (Ok fd, w') →
  ∃ n, fs w !! path = Some n ∧ readable n = true
       ∧ open_files w !! fd = None
       ∧ w' = World (fs w) (text_layer w)
                    (<[fd := OFile path n]> (open_files w)) (setup_calls w).
Proof.
  unfold py_open. destruct (fs w !! path) as [n|] eqn:Hn; [|done].
  destruct (readable n) eqn:Hr; [|done].
  intros [= <- <-]. exists n. eauto using fresh_fd_unused.
Qed.

Lemma py_read_keeps_descriptors fd w :
  open_files (py_read fd w).2 = open_files w.
Proof.
  unfold py_read. destruct (open_files w !! fd) as [f|]; [|done].
  by destruct (text_layer w (data (of_node f))).
Qed.

(** Opening any path and closing the descriptor obtained gives back the
    world of before: the descriptor was free, it is bound to the entry
    of that path in between, and no other descriptor is touched. *)
Theorem open_close_round_trip (path : string) (w : world) (fd : nat)
    (w' : world) :
  py_open path w = (Ok fd, w') →
  open_files w !! fd = None
  ∧ (∃ n, fs w !! path = Some n
          ∧ open_files w' !! fd = Some (OFile path n))
  ∧ (∀ fd', fd' ≠ fd → open_files w' !! fd' = open_files w !! fd')
  ∧ py_close fd w' = (Ok (), w).
Proof.
  intros (n & Hn & _ & Hfree & ->)%py_open_path_inv. simpl.
  split_and!; [done| | |].
  - exists n. by rewrite lookup_insert_eq.
  - intros fd' Hne. by rewrite lookup_insert_ne.
  - unfold py_close. simpl. by rewrite delete_insert_id, world_eta.
Qed.

Lemma open_close_round_trip_witness :
  py_close 3 (py_open "LICENSE.txt" Checkouts.plain).2
  = (Ok (), Checkouts.plain).
Proof.
  eapply (open_close_round_trip "LICENSE.txt" Checkouts.plain 3).
  vm_compute. reflexivity.
Defined.

(** The [with] statement releases what it acquires, whatever its body
    does with the file: if the body leaves the table of descriptors as
    it finds it, the table after the block, left normally or by an
    exception, is the table of before. *)
Theorem with_open_releases {A : Type} (path : string)
    (body : nat → M A) (w : world) :
  (∀ fd w1, open_files (body fd w1).2 = open_files w1) →
  open_files (with_open path body w).2 = open_files w.
Proof.
  intros Hbody.
  unfold with_open, mbind, M_bind, bind, finally.
  destruct (py_open path w) as [[fd|e] w1] eqn:Hop; cycle 1.
  { unfold py_open in Hop.
    destruct (fs w !! path) as [n|]; [destruct (readable n)|];
      by simplify_eq. }
  apply py_open_path_inv in Hop as (n & _ & _ & Hfree & ->).
  specialize (Hbody fd
    (World (fs w) (text_layer w)
           (<[fd := OFile path n]> (open_files w)) (setup_calls w))).
  destruct (body fd _) as [[a|e] w2]; simpl in *;
    by rewrite Hbody, delete_insert_id.
Qed.

Lemma with_open_releases_witness :
  open_files (with_open "xpaste.1x" py_read Checkouts.latin1_py27).2
  = open_files Checkouts.latin1_py27.
Proof.
  apply (with_open_releases "xpaste.1x" py_read Checkouts.latin1_py27).
  intros fd w1. apply py_read_keeps_descriptors.
Defined.

(** An exception of [open] leaves the block unentered: the body does
    not run and the world is untouched. *)
Theorem with_open_raise_skips_body {A : Type} (path : string)
    (body : nat → M A) (w : world) (e : exn) :
  (py_open path w).1 = Raise e →
  with_open path body w = (Raise e, w).
Proof.
  unfold with_open, mbind, M_bind, bind, py_open.
  destruct (fs w !! path) as [n|]; [destruct (readable n)|]; simpl;
    by intros [= <-].
Qed.

Lemma with_open_raise_skips_body_witness :
  with_open "README.rst" py_read Checkouts.no_readme
  = (Raise (FileNotFoundError "README.rst"), Checkouts.no_readme).
Proof.
  apply (with_open_raise_skips_body "README.rst" py_read Checkouts.no_readme).
  vm_compute. reflexivity.
Defined.

End Descriptors.

Section Join.

Implicit Types (sep s : string) (l : list string).

Lemma string_app_assoc (s t u : string) : (s ++ t) ++ u = s ++ t ++ u.
Proof.
  induction s as [|a s IH]; [done|].
  change (String a ((s ++ t) ++ u) = String a (s ++ t ++ u)).
  by rewrite IH.
Qed.

(** Joining a list cut in two non-empty parts is joining the parts and
    putting one separator between them. *)
Theorem join_app (sep : string) (l1 l2 : list string) :
  l1 ≠ [] → l2 ≠ [] →
  join sep (l1 ++ l2) = join sep l1 ++ sep ++ join sep l2.
Proof.
  intros Hl1 Hl2. induction l1 as [|s [|t l1] IH]; [done| |].
  - destruct l2; done.
  - change (join sep (s :: (t :: l1) ++ l2)
            = join sep (s :: t :: l1) ++ sep ++ join sep l2).
    rewrite !join_cons, string_app_assoc, string_app_assoc.
    by rewrite <- IH.
Qed.

Lemma join_app_witness :
  join sep3 ["a"; "b"; "c"] = join sep3 ["a"] ++ sep3 ++ join sep3 ["b"; "c"].
Proof. apply (join_app sep3 ["a"] ["b"; "c"]); discriminate. Defined.

End Join.

Section Interpreters.

Import Codec.

Implicit Types (w : world) (n : node) (s : string) (bs : list byte).

(** Under Python 2.7 a readme that may be read is always read, and the
    long description handed to [setup] is the file, byte for byte. *)
Theorem py27_long_description_is_file_bytes (w : world) (n : node) :
  text_layer w = py27 →
  fs w !! README = Some n → readable n = true →
  ∃ kw, calls_made "__main__" w = [kw]
        ∧ list_byte_of_string (long_description kw) = data n.
Proof.
  intros Hlayer Hn Hr.
  assert (readme_reads w (string_of_list_byte (data n))) as Hs.
  { exists n. by rewrite Hlayer. }
  exists (descriptor [string_of_list_byte (data n)]). split.
  - rewrite calls_made_main. apply read_readme_ok in Hs. by rewrite Hs.
  - simpl. apply list_byte_of_string_of_list_byte.
Qed.

Lemma py27_long_description_is_file_bytes_witness :
  ∃ kw, calls_made "__main__" Checkouts.latin1_py27 = [kw]
        ∧ list_byte_of_string (long_description kw) = Checkouts.latin1.
Proof.
  apply (py27_long_description_is_file_bytes Checkouts.latin1_py27
           (Node true Checkouts.latin1)); vm_compute; reflexivity.
Defined.

(** Under Python 3 with a UTF-8 locale, a readme that is well-formed
    UTF-8 and holds no carriage return reaches [setup] byte for byte:
    the only change the text layer can make is to line endings. *)
Theorem py3_utf8_lf_readme_is_verbatim (w : world) (n : node) :
  text_layer w = py3_utf8 →
  fs w !! README = Some n → readable n = true →
  utf8_valid (data n) = true →
  no_cr (string_of_list_byte (data n)) = true →
  ∃ kw, calls_made "__main__" w = [kw]
        ∧ list_byte_of_string (long_description kw) = data n.
Proof.
  intros Hlayer Hn Hr Hvalid Hcr.
  assert (readme_reads w (string_of_list_byte (data n))) as Hs.
  { exists n. rewrite Hlayer. unfold py3_utf8.
    by rewrite Hvalid, universal_newlines_id. }
  exists (descriptor [string_of_list_byte (data n)]). split.
  - rewrite calls_made_main. apply read_readme_ok in Hs. by rewrite Hs.
  - simpl. apply list_byte_of_string_of_list_byte.
Qed.

Lemma py3_utf8_lf_readme_is_verbatim_witness :
  ∃ kw, calls_made "__main__" Checkouts.plain = [kw]
        ∧ list_byte_of_string (long_description kw)
          = list_byte_of_string Checkouts.heading.
Proof.
  apply (py3_utf8_lf_readme_is_verbatim Checkouts.plain
           (Checkouts.text Checkouts.heading)); vm_compute; reflexivity.
Defined.

(** Under Python 3, with either codec, no long description handed to
    [setup] holds a carriage return. *)
Theorem py3_long_description_has_no_cr (nm : string) (w : world)
    (kw : kwargs) :
  text_layer w = py3_utf8 ∨ text_layer w = py3_ascii →
  kw ∈ calls_made nm w →
  no_cr (long_description kw) = true.
Proof.
  intros Hlayer (s & (n & _ & _ & Ht) & ->)%calls_made_descriptor.
  simpl. destruct Hlayer as [Hl|Hl]; rewrite Hl in Ht.
  - unfold py3_utf8 in Ht. destruct (utf8_valid (data n)); [|done].
    injection Ht as <-. apply universal_newlines_no_cr.
  - unfold py3_ascii in Ht. destruct (ascii_valid (data n)); [|done].
    injection Ht as <-. apply universal_newlines_no_cr.
Qed.

Lemma py3_long_description_has_no_cr_witness :
  no_cr (long_description (descriptor ["xpaste" ++ String nl "======"]))
  = true.
Proof.
  apply (py3_long_description_has_no_cr "__main__" Checkouts.crlf).
  - left. reflexivity.
  - vm_compute. constructor.
Defined.

(** A build that works under the ASCII locale works under the UTF-8
    locale on the same files, with the same descriptor. *)
Theorem ascii_locale_success_carries_to_utf8 (w w' : world) (kw : kwargs) :
  text_layer w = py3_ascii → text_layer w' = py3_utf8 →
  fs w' = fs w →
  calls_made "__main__" w = [kw] →
  calls_made "__main__" w' = [kw].
Proof.
  intros Hl Hl' Hfs. rewrite !calls_made_main.
  destruct (read_readme w) as [s|e] eqn:Hread; [|done].
  apply read_readme_ok in Hread as (n & Hn & Hr & Ht).
  rewrite Hl in Ht. apply py3_ascii_utf8 in Ht.
  assert (read_readme w' = Ok s) as ->; [|done].
  apply read_readme_ok. exists n. by rewrite Hfs, Hl'.
Qed.

Lemma ascii_locale_success_carries_to_utf8_witness :
  calls_made "__main__" Checkouts.plain = [descriptor [Checkouts.heading]].
Proof.
  apply (ascii_locale_success_carries_to_utf8
           Checkouts.plain_c_locale Checkouts.plain);
    vm_compute; reflexivity.
Defined.

End Interpreters.
